(** * Placeholder icon generators of [src-tauri/icons]

    A shallow embedding of the two Python scripts [create_ico.py] and
    [create_placeholders.py], together with the properties their
    specification states about the bytes they emit.

    - bytes are integers in [0, 255], byte strings are [list Z];
    - [struct.pack] is embedded with its format-string parser, its item
      count check and its range checks, and raises [StructError];
    - the scripts run in a small state-and-exception monad over a world
      made of a file system, the standard output and an oracle that says
      which file operations fail with [OSError]. *)

From Stdlib Require Import ZArith List String Ascii Lia Bool.
From stdpp Require Import base gmap strings list.

Local Open Scope Z_scope.

(** ** Byte strings *)

Definition bytes : Type := list Z.

(** [len(b)] *)
Definition len (b : bytes) : Z := Z.of_nat (length b).

(** An ASCII bytes literal, [b'IHDR']. *)
Definition b_lit (s : string) : bytes :=
  map (fun c => Z.of_nat (nat_of_ascii c)) (list_ascii_of_string s).

(** [b * n]: repetition of a byte string; empty when [n <= 0]. *)
Definition bytes_mul (b : bytes) (n : Z) : bytes :=
  concat (repeat b (Z.to_nat n)).

(** The [n] low-order bytes of [v], least significant first. *)
Fixpoint to_bytes_le (n : nat) (v : Z) : bytes :=
  match n with
  | O => []
  | S k => Z.land v 255 :: to_bytes_le k (Z.shiftr v 8)
  end.

Definition to_bytes_be (n : nat) (v : Z) : bytes := rev (to_bytes_le n v).

(** Decoding of an unsigned integer, least significant byte first. *)
Fixpoint from_bytes_le (b : bytes) : Z :=
  match b with
  | [] => 0
  | x :: r => x + 256 * from_bytes_le r
  end.

Definition from_bytes_be (b : bytes) : Z := from_bytes_le (rev b).

(** The slice [b[i:j]]. *)
Definition slice (i j : nat) (b : bytes) : bytes := take (j - i) (drop i b).

(** ** Python results *)

Inductive exn : Type :=
  | StructError   (* struct.error *)
  | OSError.      (* any failure of the file system *)

Inductive result (A : Type) : Type :=
  | Ok (a : A)
  | Raise (e : exn).
Arguments Ok {A} a.
Arguments Raise {A} e.

(** ** [struct.pack] *)

Module Struct.

Inductive byte_order : Type := LittleEndian | BigEndian.

(** The format characters the scripts use: [B], [H] and [I]. *)
Inductive code : Type := fmt_B | fmt_H | fmt_I.

Definition code_size (c : code) : nat :=
  match c with fmt_B => 1 | fmt_H => 2 | fmt_I => 4 end%nat.

(** One more than the largest value a code can hold. *)
Definition code_limit (c : code) : Z :=
  match c with fmt_B => 256 | fmt_H => 65536 | fmt_I => 4294967296 end.

Definition code_of_ascii (a : ascii) : option code :=
  if Ascii.eqb a "B" then Some fmt_B
  else if Ascii.eqb a "H" then Some fmt_H
  else if Ascii.eqb a "I" then Some fmt_I
  else None.

Fixpoint parse_codes (s : string) : option (list code) :=
  match s with
  | EmptyString => Some []
  | String a r =>
      match code_of_ascii a, parse_codes r with
      | Some c, Some cs => Some (c :: cs)
      | _, _ => None
      end
  end.

(** A format is a byte-order mark followed by codes. Both scripts
    always give the mark; a format without one is not embedded. *)
Definition parse_format (s : string) : option (byte_order * list code) :=
  match s with
  | String a r =>
      if Ascii.eqb a "<" then pair LittleEndian <$> parse_codes r
      else if Ascii.eqb a ">" then pair BigEndian <$> parse_codes r
      else None
  | EmptyString => None
  end.

Definition in_range (c : code) (v : Z) : bool :=
  (0 <=? v) && (v <? code_limit c).

Definition pack_item (o : byte_order) (c : code) (v : Z) : bytes :=
  match o with
  | LittleEndian => to_bytes_le (code_size c) v
  | BigEndian => to_bytes_be (code_size c) v
  end.

(** Items are packed in order; an item out of the range of its code
    raises, and so does a number of items other than that of codes. *)
Fixpoint pack_items (o : byte_order) (cs : list code) (vs : list Z)
  : result bytes :=
  match cs, vs with
  | [], [] => Ok []
  | c :: cs', v :: vs' =>
      if in_range c v then
        match pack_items o cs' vs' with
        | Ok r => Ok (pack_item o c v ++ r)
        | Raise e => Raise e
        end
      else Raise StructError
  | _, _ => Raise StructError
  end.

(** [struct.pack(fmt, *vs)] *)
Definition pack (fmt : string) (vs : list Z) : result bytes :=
  match parse_format fmt with
  | Some (o, cs) =>
      if (length cs =? length vs)%nat then pack_items o cs vs
      else Raise StructError
  | None => Raise StructError
  end.

(** [struct.calcsize(fmt)] *)
Definition calcsize (fmt : string) : option nat :=
  (fun p => foldr (fun c n => (code_size c + n)%nat) 0%nat (snd p))
    <$> parse_format fmt.

End Struct.

(** ** The world the scripts run in *)

Inductive io_op : Type :=
  | OpOpen (path : string)
  | OpWrite (path : string).

Record world : Type := World {
  files : gmap string bytes;    (* contents of the working directory *)
  stdout : list string;         (* lines printed so far *)
  io_fails : io_op -> bool      (* the operations that raise OSError *)
}.

Definition set_files (f : gmap string bytes -> gmap string bytes)
    (σ : world) : world :=
  {| files := f (files σ); stdout := stdout σ; io_fails := io_fails σ |}.

Definition add_line (s : string) (σ : world) : world :=
  {| files := files σ; stdout := stdout σ ++ [s]; io_fails := io_fails σ |}.

(** State and exceptions: a computation maps a world to a result and the
    world it leaves behind; effects made before a raise stay. *)
Definition py (A : Type) : Type := world -> result A * world.

#[global] Instance py_ret : MRet py := fun A a σ => (Ok a, σ).

#[global] Instance py_bind : MBind py := fun A B f m σ =>
  match m σ with
  | (Ok a, σ') => f a σ'
  | (Raise e, σ') => (Raise e, σ')
  end.

Definition run {A : Type} (m : py A) (σ : world) : result A * world := m σ.

(** A pure computation that may raise. *)
Definition lift {A : Type} (r : result A) : py A := fun σ => (r, σ).

Definition struct_pack (fmt : string) (vs : list Z) : py bytes :=
  lift (Struct.pack fmt vs).

(** [open(path, 'wb')]: creates the file or truncates it. The handle is
    the path. *)
Definition open_wb (path : string) : py string := fun σ =>
  if io_fails σ (OpOpen path) then (Raise OSError, σ)
  else (Ok path, set_files (insert path []) σ).

(** [f.write(data)]: appends to the file. *)
Definition write (f : string) (data : bytes) : py unit := fun σ =>
  if io_fails σ (OpWrite f) then (Raise OSError, σ)
  else (Ok tt,
        set_files (fun fs => <[f := default [] (fs !! f) ++ data]> fs) σ).

(** [print(s)] *)
Definition print (s : string) : py unit := fun σ => (Ok tt, add_line s σ).

(** ** [create_ico.py] *)

Definition create_minimal_ico (filename : string) : py unit :=
  let width := 32 in
  let height := 32 in
  (* ICO header (6 bytes): Reserved (2) + Type (2) + Count (2) *)
  ico_header ← struct_pack "<HHH" [0; 1; 1];
  (* Image data (blank 32x32 RGBA) *)
  let image_data := bytes_mul [0x00] (width * height * 4) in
  (* BMP info header (40 bytes) *)
  bmp_header ← struct_pack "<IHHHHHIIHHHII"
    [ 40;                 (* Header size *)
      width;              (* Width *)
      height * 2;         (* Height (doubled for ICO format) *)
      1; 32;              (* Planes, Bits per pixel *)
      0;                  (* Compression *)
      len image_data;     (* Image size *)
      0; 0; 0; 0 ];       (* DPI/colors (not used) *)
  (* Directory entry (16 bytes) *)
  let image_size := len bmp_header + len image_data in
  dir_entry ← struct_pack "<BBBBHHI"
    [ width; height;      (* Width, Height *)
      0; 0;               (* Color count, Reserved *)
      1; 32;              (* Planes, Bits per pixel *)
      image_size ];       (* Size *)
  (* Offset is 6 (ico header) + 16 (dir entry) = 22 *)
  offset ← struct_pack "<I" [22];
  let dir_entry := dir_entry ++ offset in
  f ← open_wb filename;
  write f ico_header;;
  write f dir_entry;;
  write f bmp_header;;
  write f image_data.

(** The script: one call, then the confirmation. *)
Definition create_ico_main : py unit :=
  create_minimal_ico "icon.ico";;
  print "ICO file created successfully".

(** ** [create_placeholders.py] *)

Definition create_minimal_png (width height : Z) (filename : string)
    : py unit :=
  (* PNG signature *)
  let signature := [0x89] ++ b_lit "PNG" ++ [0x0D; 0x0A; 0x1A; 0x0A] in
  (* IHDR chunk (width, height, bit depth, color type, etc.) *)
  ihdr_data ← struct_pack ">IIBBBBB" [width; height; 8; 2; 0; 0; 0];
  let ihdr_crc := 0x90773496 in
  let ihdr_chunk := b_lit "IHDR" ++ ihdr_data in
  ihdr_len ← struct_pack ">I" [13];
  ihdr_sum ← struct_pack ">I" [ihdr_crc];
  let ihdr := ihdr_len ++ ihdr_chunk ++ ihdr_sum in
  (* IDAT chunk (minimal image data) *)
  let idat_data :=
    [0x08; 0x1d; 0x01; 0x01; 0x00; 0xfe; 0xff; 0x00; 0x00; 0x00; 0x01;
     0x00; 0x01] in
  let idat_crc := 0xe1240dc9 in
  let idat_chunk := b_lit "IDAT" ++ idat_data in
  idat_len ← struct_pack ">I" [len idat_data];
  idat_sum ← struct_pack ">I" [idat_crc];
  let idat := idat_len ++ idat_chunk ++ idat_sum in
  (* IEND chunk *)
  let iend_crc := 0xae426082 in
  iend_len ← struct_pack ">I" [0];
  iend_sum ← struct_pack ">I" [iend_crc];
  let iend := iend_len ++ b_lit "IEND" ++ iend_sum in
  f ← open_wb filename;
  write f (signature ++ ihdr ++ idat ++ iend).

(** The script: PNG files of different sizes, then the confirmation. *)
Definition create_placeholders_main : py unit :=
  create_minimal_png 32 32 "32x32.png";;
  create_minimal_png 128 128 "128x128.png";;
  create_minimal_png 128 128 "128x128@2x.png";;
  print "PNG files created successfully".

(** ** Reading the files back *)

(** What a run leaves under [path] when it completes; [None] when it
    raises. *)
Definition emitted {A : Type} (path : string) (r : result A * world)
    : option bytes :=
  match r with
  | (Ok _, σ') => files σ' !! path
  | (Raise _, _) => None
  end.

(** What one can observe of a run about [path]: the bytes of the file
    when it completes, the exception when it raises. *)
Definition output_of {A : Type} (path : string) (r : result A * world)
    : result bytes :=
  match r with
  | (Ok _, σ') => Ok (default [] (files σ' !! path))
  | (Raise e, _) => Raise e
  end.

(** The standard CRC-32 (ISO 3309, as the PNG standard uses it): the
    reflected polynomial 0xEDB88320, initial value and final xor
    0xFFFFFFFF, one bit at a time. *)
Module Crc32.

Definition poly : Z := 0xEDB88320.

Definition step_bit (c : Z) : Z :=
  if Z.testbit c 0 then Z.lxor (Z.shiftr c 1) poly else Z.shiftr c 1.

Definition step_byte (c b : Z) : Z := Nat.iter 8 step_bit (Z.lxor c b).

Definition crc32 (data : bytes) : Z :=
  Z.lxor (fold_left step_byte data 0xFFFFFFFF) 0xFFFFFFFF.

End Crc32.

(** The layout of a PNG file as a decoder sees it: the signature, then
    chunks of a 4-byte big-endian length, a 4-byte type, the data and a
    4-byte big-endian CRC, up to the end of the file. *)
Module Png.

Record chunk : Type := Chunk {
  chunk_length : Z;     (* the length field *)
  chunk_type : bytes;   (* the 4-byte type tag *)
  chunk_data : bytes;
  chunk_crc : Z         (* the CRC field *)
}.

Definition signature : bytes := [137; 80; 78; 71; 13; 10; 26; 10].

Fixpoint read_chunks (fuel : nat) (b : bytes) : option (list chunk) :=
  match b, fuel with
  | [], _ => Some []
  | _, O => None
  | _, S fuel' =>
      let n := Z.to_nat (from_bytes_be (slice 0 4 b)) in
      if (12 + n <=? length b)%nat then
        cons {| chunk_length := from_bytes_be (slice 0 4 b);
                chunk_type := slice 4 8 b;
                chunk_data := slice 8 (8 + n) b;
                chunk_crc := from_bytes_be (slice (8 + n) (12 + n) b) |}
          <$> read_chunks fuel' (drop (12 + n) b)
      else None
  end.

(** The chunks of a file; [None] when the signature is missing or a
    chunk is cut short. *)
Definition read_png (b : bytes) : option (list chunk) :=
  if decide (take 8 b = signature) then read_chunks (length b) (drop 8 b)
  else None.

(** The CRC field of a chunk is the CRC-32 of its type and data. *)
Definition crc_ok (c : chunk) : Prop :=
  chunk_crc c = Crc32.crc32 (chunk_type c ++ chunk_data c).

(** Width and height as the IHDR chunk declares them. *)
Definition dimensions (b : bytes) : option (Z * Z) :=
  match read_png b with
  | Some (c :: _) =>
      Some (from_bytes_be (slice 0 4 (chunk_data c)),
            from_bytes_be (slice 4 8 (chunk_data c)))
  | _ => None
  end.

End Png.

(** The bytes [create_minimal_png] hands to [f.write], written out. *)
Definition ihdr_payload (width height : Z) : bytes :=
  to_bytes_be 4 width ++ to_bytes_be 4 height ++ [8; 2; 0; 0; 0].

Definition idat_payload : bytes :=
  [0x08; 0x1d; 0x01; 0x01; 0x00; 0xfe; 0xff; 0x00; 0x00; 0x00; 0x01;
   0x00; 0x01].

Definition png_image (width height : Z) : bytes :=
  Png.signature
  ++ ([0; 0; 0; 13] ++ b_lit "IHDR" ++ ihdr_payload width height
        ++ [0x90; 0x77; 0x34; 0x96])
  ++ ([0; 0; 0; 13] ++ b_lit "IDAT" ++ idat_payload
        ++ [0xe1; 0x24; 0x0d; 0xc9])
  ++ ([0; 0; 0; 0] ++ b_lit "IEND" ++ [0xae; 0x42; 0x60; 0x82]).

(** No operation on [path] fails. *)
Definition io_ok (σ : world) (path : string) : Prop :=
  io_fails σ (OpOpen path) = false /\ io_fails σ (OpWrite path) = false.

(** No operation on the file system fails at all. *)
Definition no_io_failure (σ : world) : Prop :=
  forall op, io_fails σ op = false.

Definition u32 (v : Z) : Prop := 0 <= v < 4294967296.

(** The three files [create_placeholders.py] leaves behind. *)
Definition placeholder_files (fs : gmap string bytes) : gmap string bytes :=
  <["128x128@2x.png" := png_image 128 128]>
    (<["128x128.png" := png_image 128 128]>
       (<["32x32.png" := png_image 32 32]> fs)).

(** What a decoder reads in the bytes of [create_minimal_png]. *)
Definition ihdr_chunk (w h : Z) : Png.chunk :=
  {| Png.chunk_length := 13; Png.chunk_type := b_lit "IHDR";
     Png.chunk_data := ihdr_payload w h; Png.chunk_crc := 0x90773496 |}.

Definition idat_chunk : Png.chunk :=
  {| Png.chunk_length := 13; Png.chunk_type := b_lit "IDAT";
     Png.chunk_data := idat_payload; Png.chunk_crc := 0xe1240dc9 |}.

Definition iend_chunk : Png.chunk :=
  {| Png.chunk_length := 0; Png.chunk_type := b_lit "IEND";
     Png.chunk_data := []; Png.chunk_crc := 0xae426082 |}.

(** ** Sample worlds *)

(** A world with an empty directory in which nothing fails. *)
Definition quiet_world : world :=
  {| files := ∅; stdout := []; io_fails := fun _ => false |}.

(** A world with a stale file, some output and a read-only path. *)
Definition busy_world : world :=
  {| files := {[ "32x32.png" := [1; 2; 3] ]};
     stdout := ["building"%string];
     io_fails := fun op =>
       match op with
       | OpOpen p | OpWrite p => String.eqb p "locked.bin"
       end |}.

(** A directory where [128x128.png] cannot be opened or written. *)
Definition stuck_world : world :=
  {| files := {[ "128x128.png" := [7; 7] ]};
     stdout := [];
     io_fails := fun op =>
       match op with
       | OpOpen p | OpWrite p => String.eqb p "128x128.png"
       end |}.

(** ** Vocabulary of the further properties *)

(** A value a byte string can hold. *)
Definition is_byte (v : Z) : Prop := 0 <= v < 256.

(** Reading an unsigned integer back in a byte order. *)
Definition decode_item (o : Struct.byte_order) (b : bytes) : Z :=
  match o with
  | Struct.LittleEndian => from_bytes_le b
  | Struct.BigEndian => from_bytes_be b
  end.

(** The number of bytes a list of codes stands for. *)
Definition codes_size (cs : list Struct.code) : nat :=
  foldr (fun c n => (Struct.code_size c + n)%nat) 0%nat cs.

(** The character of a code and of a byte order in a format string. *)
Definition code_char (c : Struct.code) : ascii :=
  match c with
  | Struct.fmt_B => "B"
  | Struct.fmt_H => "H"
  | Struct.fmt_I => "I"
  end%char.

Definition order_mark (o : Struct.byte_order) : ascii :=
  match o with
  | Struct.LittleEndian => "<"
  | Struct.BigEndian => ">"
  end%char.

Definition codes_string (cs : list Struct.code) : string :=
  foldr (fun c s => String (code_char c) s) EmptyString cs.

(** The format string that spells a byte order and a list of codes. *)
Definition format_of (o : Struct.byte_order) (cs : list Struct.code)
    : string :=
  String (order_mark o) (codes_string cs).

(** The values an unsigned code of its size can hold. *)
Definition fits (c : Struct.code) (v : Z) : Prop :=
  0 <= v < 2 ^ (8 * Z.of_nat (Struct.code_size c)).

(** * Properties *)

(** ** Integers and their bytes *)

Example crc32_check_value :
  Crc32.crc32 (b_lit "123456789") = 0xCBF43926.
Proof. reflexivity. Qed.

Lemma length_to_bytes_le n v : length (to_bytes_le n v) = n.
Proof. revert v. induction n as [|n IH]; intros v; simpl; [done|]. by rewrite IH. Qed.

Lemma length_to_bytes_be n v : length (to_bytes_be n v) = n.
Proof. unfold to_bytes_be. by rewrite length_rev, length_to_bytes_le. Qed.

Lemma from_to_bytes_le n v :
  0 <= v -> from_bytes_le (to_bytes_le n v) = v mod 2 ^ (8 * Z.of_nat n).
Proof.
  revert v. induction n as [|n IH]; intros v Hv.
  - simpl. by rewrite Z.mod_1_r.
  - cbn [to_bytes_le from_bytes_le].
    rewrite IH by (apply Z.shiftr_nonneg; lia).
    change 255 with (Z.ones 8). rewrite Z.land_ones by lia.
    rewrite Z.shiftr_div_pow2 by lia.
    replace (8 * Z.of_nat (S n)) with (8 + 8 * Z.of_nat n) by lia.
    rewrite Z.pow_add_r by lia.
    change (2 ^ 8) with 256.
    rewrite (Z.rem_mul_r v 256) by lia. reflexivity.
Qed.

Lemma from_to_bytes_be n v :
  0 <= v < 2 ^ (8 * Z.of_nat n) -> from_bytes_be (to_bytes_be n v) = v.
Proof.
  intros Hv. unfold from_bytes_be, to_bytes_be.
  rewrite rev_involutive, from_to_bytes_le by lia.
  apply Z.mod_small; lia.
Qed.

Lemma from_to_bytes_be_u32 v : u32 v -> from_bytes_be (to_bytes_be 4 v) = v.
Proof. intros Hv. apply from_to_bytes_be. exact Hv. Qed.

(** ** The chunk reader *)

(** The chunks the reader returns tile its input: every byte belongs to
    one chunk, each chunk has a 4-byte type and as many data bytes as
    its length field says. *)
Lemma read_chunks_tiles fuel b cs :
  Png.read_chunks fuel b = Some cs ->
  length b
    = sum_list (map (fun c => (12 + length (Png.chunk_data c))%nat) cs) /\
  Forall (fun c => length (Png.chunk_type c) = 4%nat /\
                   Z.to_nat (Png.chunk_length c) = length (Png.chunk_data c))
    cs.
Proof.
  revert b cs. induction fuel as [|fuel IH]; intros b cs.
  - destruct b; [|discriminate]. intros [= <-]. by split.
  - destruct b as [|x b']; [intros [= <-]; by split|].
    set (b := x :: b'). cbn [Png.read_chunks]. fold b.
    set (n := Z.to_nat (from_bytes_be (slice 0 4 b))).
    destruct (12 + n <=? length b)%nat eqn:Hlen; [|discriminate].
    apply Nat.leb_le in Hlen.
    intros (cs' & Hcs' & ->)%fmap_Some.
    destruct (IH _ _ Hcs') as [Hsum Hall].
    assert (Hdata : length (slice 8 (8 + n) b) = n).
    { unfold slice. rewrite length_take, length_drop. lia. }
    split.
    + cbn [map sum_list Png.chunk_data]. rewrite <- Hsum, Hdata, length_drop.
      unfold id. lia.
    + constructor; [|exact Hall].
      cbn [Png.chunk_type Png.chunk_length Png.chunk_data].
      split; [|by rewrite Hdata].
      unfold slice. rewrite length_take, length_drop. lia.
Qed.

(** ** What the generators do, in every world *)

Lemma in_range_u32 v : Struct.in_range Struct.fmt_I v = true <-> u32 v.
Proof.
  unfold Struct.in_range, u32, Struct.code_limit.
  rewrite andb_true_iff, Z.leb_le, Z.ltb_lt. reflexivity.
Qed.

Lemma pack_ihdr_data w h :
  Struct.pack ">IIBBBBB" [w; h; 8; 2; 0; 0; 0] =
  if Struct.in_range Struct.fmt_I w && Struct.in_range Struct.fmt_I h
  then Ok (ihdr_payload w h) else Raise StructError.
Proof.
  unfold Struct.pack.
  change (Struct.parse_format ">IIBBBBB")
    with (Some (Struct.BigEndian,
                [Struct.fmt_I; Struct.fmt_I; Struct.fmt_B; Struct.fmt_B;
                 Struct.fmt_B; Struct.fmt_B; Struct.fmt_B])).
  cbn [length Nat.eqb Struct.pack_items].
  destruct (Struct.in_range Struct.fmt_I w); [|reflexivity].
  destruct (Struct.in_range Struct.fmt_I h); reflexivity.
Qed.

(** The whole behaviour of [create_minimal_png]: it raises
    [struct.error] when a dimension does not fit 32 bits, [OSError] when
    the file system fails, and otherwise leaves [png_image] in the file. *)
Lemma create_minimal_png_run w h fn σ :
  run (create_minimal_png w h fn) σ =
  if Struct.in_range Struct.fmt_I w && Struct.in_range Struct.fmt_I h then
    if io_fails σ (OpOpen fn) then (Raise OSError, σ)
    else if io_fails σ (OpWrite fn)
         then (Raise OSError, set_files (insert fn []) σ)
         else (Ok tt, set_files (insert fn (png_image w h)) σ)
  else (Raise StructError, σ).
Proof.
  unfold run, create_minimal_png, mbind, py_bind, struct_pack, lift.
  rewrite pack_ihdr_data.
  destruct (Struct.in_range Struct.fmt_I w && Struct.in_range Struct.fmt_I h);
    [|reflexivity].
  change (Struct.pack ">I" [13]) with (Ok (A := bytes) [0; 0; 0; 13]).
  change (Struct.pack ">I" [2423731350])
    with (Ok (A := bytes) [0x90; 0x77; 0x34; 0x96]).
  change (Struct.pack ">I" [len _])
    with (Ok (A := bytes) [0; 0; 0; 13]).
  change (Struct.pack ">I" [3777236425])
    with (Ok (A := bytes) [0xe1; 0x24; 0x0d; 0xc9]).
  change (Struct.pack ">I" [0]) with (Ok (A := bytes) [0; 0; 0; 0]).
  change (Struct.pack ">I" [2923585666])
    with (Ok (A := bytes) [0xae; 0x42; 0x60; 0x82]).
  cbv beta iota zeta.
  unfold open_wb. destruct (io_fails σ (OpOpen fn)) eqn:Hopen; [reflexivity|].
  unfold write. cbn [io_fails set_files files stdout].
  destruct (io_fails σ (OpWrite fn)) eqn:Hwrite; [reflexivity|].
  f_equal. unfold set_files. cbn [files stdout io_fails]. f_equal.
  rewrite lookup_insert_eq, insert_insert_eq. reflexivity.
Qed.

(** [create_minimal_ico] raises [struct.error] in every world, before it
    opens the file: the format of the bitmap header has 13 codes and the
    call gives 11 values. *)
Lemma create_minimal_ico_run fn σ :
  run (create_minimal_ico fn) σ = (Raise StructError, σ).
Proof. reflexivity. Qed.

Lemma create_minimal_png_ok w h fn σ :
  u32 w -> u32 h -> io_ok σ fn ->
  run (create_minimal_png w h fn) σ =
  (Ok tt, set_files (insert fn (png_image w h)) σ).
Proof.
  intros Hw Hh [Hopen Hwrite]. rewrite create_minimal_png_run.
  apply in_range_u32 in Hw, Hh. rewrite Hw, Hh, Hopen, Hwrite. reflexivity.
Qed.

(** A file is emitted exactly when the dimensions fit and the file
    system does not fail, and then it is [png_image]. *)
Lemma create_minimal_png_emitted w h fn σ bs :
  emitted fn (run (create_minimal_png w h fn) σ) = Some bs <->
  u32 w /\ u32 h /\ io_ok σ fn /\ bs = png_image w h.
Proof.
  rewrite create_minimal_png_run. unfold io_ok.
  rewrite <- !in_range_u32.
  destruct (Struct.in_range Struct.fmt_I w), (Struct.in_range Struct.fmt_I h),
    (io_fails σ (OpOpen fn)), (io_fails σ (OpWrite fn));
    cbn [andb emitted set_files files]; rewrite ?lookup_insert_eq;
    try (split; [discriminate | intros (?&?&[? ?]&?); discriminate]).
  split.
  - intros [= <-]. auto.
  - intros (_&_&_&->). reflexivity.
Qed.

Lemma run_bind {A B : Type} (m : py A) (f : A -> py B) σ :
  run (m ≫= f) σ =
  match run m σ with
  | (Ok a, σ') => run (f a) σ'
  | (Raise e, σ') => (Raise e, σ')
  end.
Proof. reflexivity. Qed.

Lemma no_io_failure_io_ok σ path : no_io_failure σ -> io_ok σ path.
Proof. intros H. split; apply H. Qed.

Lemma no_io_failure_set_files f σ :
  no_io_failure σ -> no_io_failure (set_files f σ).
Proof. intros H op. apply H. Qed.

(** Without a failure of the file system the PNG script completes: the
    three files are written and the confirmation is printed. *)
Lemma create_placeholders_main_ok σ :
  no_io_failure σ ->
  run create_placeholders_main σ =
  (Ok tt,
   add_line "PNG files created successfully" (set_files placeholder_files σ)).
Proof.
  intros Hio. unfold create_placeholders_main.
  rewrite run_bind, create_minimal_png_ok;
    [|unfold u32; lia..|by apply no_io_failure_io_ok].
  rewrite run_bind, create_minimal_png_ok;
    [|unfold u32; lia..
     |by apply no_io_failure_io_ok, no_io_failure_set_files].
  rewrite run_bind, create_minimal_png_ok;
    [|unfold u32; lia..
     |by apply no_io_failure_io_ok; do 2 apply no_io_failure_set_files].
  reflexivity.
Qed.

Lemma length_png_image w h : length (png_image w h) = 70%nat.
Proof. reflexivity. Qed.

Lemma read_chunks_png_image w h :
  Png.read_chunks (length (png_image w h)) (drop 8 (png_image w h)) =
  Some [ihdr_chunk w h; idat_chunk; iend_chunk].
Proof. reflexivity. Qed.

Lemma read_png_image w h :
  Png.read_png (png_image w h) = Some [ihdr_chunk w h; idat_chunk; iend_chunk].
Proof. reflexivity. Qed.

Lemma dimensions_png_image w h :
  u32 w -> u32 h -> Png.dimensions (png_image w h) = Some (w, h).
Proof.
  intros Hw Hh.
  change (Png.dimensions (png_image w h))
    with (Some (from_bytes_be (to_bytes_be 4 w),
                from_bytes_be (to_bytes_be 4 h))).
  by rewrite !from_to_bytes_be_u32.
Qed.

(** * The claims *)

(** ** PNG generator *)

(** C2. Whatever width and height [create_minimal_png] is given, the
    file it emits has the CRC field 0x90773496 in its IHDR chunk,
    0xe1240dc9 in its IDAT chunk and 0xae426082 in its IEND chunk. *)
Theorem png_crc_fields_are_fixed w h fn σ bs :
  emitted fn (run (create_minimal_png w h fn) σ) = Some bs ->
  exists ihdr idat iend,
    Png.read_png bs = Some [ihdr; idat; iend] /\
    Png.chunk_type ihdr = b_lit "IHDR" /\ Png.chunk_crc ihdr = 0x90773496 /\
    Png.chunk_type idat = b_lit "IDAT" /\ Png.chunk_crc idat = 0xe1240dc9 /\
    Png.chunk_type iend = b_lit "IEND" /\ Png.chunk_crc iend = 0xae426082.
Proof.
  intros (_ & _ & _ & ->)%create_minimal_png_emitted.
  exists (ihdr_chunk w h), idat_chunk, iend_chunk.
  rewrite read_png_image. repeat split.
Qed.

Lemma png_crc_fields_are_fixed_witness :
  emitted "a.png" (run (create_minimal_png 640 480 "a.png") busy_world)
    = Some (png_image 640 480) /\
  exists ihdr idat iend,
    Png.read_png (png_image 640 480) = Some [ihdr; idat; iend] /\
    Png.chunk_type ihdr = b_lit "IHDR" /\ Png.chunk_crc ihdr = 0x90773496 /\
    Png.chunk_type idat = b_lit "IDAT" /\ Png.chunk_crc idat = 0xe1240dc9 /\
    Png.chunk_type iend = b_lit "IEND" /\ Png.chunk_crc iend = 0xae426082.
Proof.
  split; [vm_compute; reflexivity|].
  apply (png_crc_fields_are_fixed 640 480 "a.png" busy_world).
  vm_compute; reflexivity.
Defined.

(** C7. Every file [create_minimal_png] emits begins with the 8-byte
    signature 89 50 4E 47 0D 0A 1A 0A, and what follows the signature is
    exactly three chunks, IHDR, IDAT and IEND in that order. *)
Theorem png_signature_and_chunk_order w h fn σ bs :
  emitted fn (run (create_minimal_png w h fn) σ) = Some bs ->
  take 8 bs = [0x89; 0x50; 0x4E; 0x47; 0x0D; 0x0A; 0x1A; 0x0A] /\
  exists cs,
    Png.read_chunks (length bs) (drop 8 bs) = Some cs /\
    map Png.chunk_type cs = [b_lit "IHDR"; b_lit "IDAT"; b_lit "IEND"].
Proof.
  intros (_ & _ & _ & ->)%create_minimal_png_emitted.
  split; [reflexivity|].
  exists [ihdr_chunk w h; idat_chunk; iend_chunk].
  split; [apply read_chunks_png_image | reflexivity].
Qed.

Lemma png_signature_and_chunk_order_witness :
  emitted "32x32.png" (run (create_minimal_png 32 32 "32x32.png") busy_world)
    = Some (png_image 32 32) /\
  take 8 (png_image 32 32) = [0x89; 0x50; 0x4E; 0x47; 0x0D; 0x0A; 0x1A; 0x0A] /\
  exists cs,
    Png.read_chunks (length (png_image 32 32)) (drop 8 (png_image 32 32))
      = Some cs /\
    map Png.chunk_type cs = [b_lit "IHDR"; b_lit "IDAT"; b_lit "IEND"].
Proof.
  split; [vm_compute; reflexivity|].
  apply (png_signature_and_chunk_order 32 32 "32x32.png" busy_world).
  vm_compute; reflexivity.
Defined.

(** C9. For a width and a height that fit unsigned 32-bit integers the
    emitted file is exactly 70 bytes long, whatever their values: the
    8-byte signature and chunks of 25, 25 and 12 bytes. *)
Theorem png_length_is_70 w h fn σ :
  u32 w -> u32 h -> io_ok σ fn ->
  exists bs cs,
    emitted fn (run (create_minimal_png w h fn) σ) = Some bs /\
    length bs = 70%nat /\
    length Png.signature = 8%nat /\
    Png.read_png bs = Some cs /\
    map (fun c => (12 + length (Png.chunk_data c))%nat) cs
      = [25; 25; 12]%nat.
Proof.
  intros Hw Hh Hio.
  exists (png_image w h), [ihdr_chunk w h; idat_chunk; iend_chunk].
  split; [by apply create_minimal_png_emitted|].
  repeat split.
Qed.

Lemma png_length_is_70_witness :
  u32 4294967295 /\ u32 0 /\ io_ok quiet_world "big.png" /\
  exists bs cs,
    emitted "big.png"
      (run (create_minimal_png 4294967295 0 "big.png") quiet_world)
      = Some bs /\
    length bs = 70%nat /\
    length Png.signature = 8%nat /\
    Png.read_png bs = Some cs /\
    map (fun c => (12 + length (Png.chunk_data c))%nat) cs
      = [25; 25; 12]%nat.
Proof.
  assert (Hw : u32 4294967295) by (unfold u32; lia).
  assert (Hh : u32 0) by (unfold u32; lia).
  assert (Hio : io_ok quiet_world "big.png") by (split; reflexivity).
  split; [exact Hw|]. split; [exact Hh|]. split; [exact Hio|].
  exact (png_length_is_70 4294967295 0 "big.png" quiet_world Hw Hh Hio).
Defined.

(** C6. The IHDR chunk of every emitted file has a 13-byte payload:
    the width and the height as 4-byte big-endian integers, then bit
    depth 8, colour type 2 and compression, filter and interlace methods
    0. In the files the script writes the two integers decode to 32 and
    32 for [32x32.png], and to 128 and 128 for [128x128.png] and
    [128x128@2x.png]. *)
Theorem ihdr_payload_is_correct :
  (forall w h fn σ bs,
     emitted fn (run (create_minimal_png w h fn) σ) = Some bs ->
     exists ihdr rest,
       Png.read_png bs = Some (ihdr :: rest) /\
       Png.chunk_type ihdr = b_lit "IHDR" /\
       Png.chunk_length ihdr = 13 /\
       length (Png.chunk_data ihdr) = 13%nat /\
       Png.chunk_data ihdr
         = to_bytes_be 4 w ++ to_bytes_be 4 h ++ [8; 2; 0; 0; 0] /\
       from_bytes_be (slice 0 4 (Png.chunk_data ihdr)) = w /\
       from_bytes_be (slice 4 8 (Png.chunk_data ihdr)) = h) /\
  (forall σ,
     no_io_failure σ ->
     exists σ' small large large2x,
       run create_placeholders_main σ = (Ok tt, σ') /\
       files σ' !! "32x32.png" = Some small /\
       Png.dimensions small = Some (32, 32) /\
       files σ' !! "128x128.png" = Some large /\
       Png.dimensions large = Some (128, 128) /\
       files σ' !! "128x128@2x.png" = Some large2x /\
       Png.dimensions large2x = Some (128, 128)).
Proof.
  split.
  - intros w h fn σ bs (Hw & Hh & _ & ->)%create_minimal_png_emitted.
    exists (ihdr_chunk w h), [idat_chunk; iend_chunk].
    rewrite read_png_image. repeat split.
    + change (slice 0 4 _) with (to_bytes_be 4 w).
      by apply from_to_bytes_be_u32.
    + change (slice 4 8 _) with (to_bytes_be 4 h).
      by apply from_to_bytes_be_u32.
  - intros σ Hio. rewrite create_placeholders_main_ok by done.
    eexists _, (png_image 32 32), (png_image 128 128), (png_image 128 128).
    split; [reflexivity|].
    cbn [add_line set_files files]. unfold placeholder_files.
    repeat split.
    + rewrite lookup_insert_ne, lookup_insert_ne by done.
      apply lookup_insert_eq.
    + rewrite lookup_insert_ne by done. apply lookup_insert_eq.
    + apply lookup_insert_eq.
Qed.

Lemma ihdr_payload_is_correct_witness :
  (emitted "tall.png" (run (create_minimal_png 3 70000 "tall.png") busy_world)
     = Some (png_image 3 70000) /\
   exists ihdr rest,
     Png.read_png (png_image 3 70000) = Some (ihdr :: rest) /\
     Png.chunk_type ihdr = b_lit "IHDR" /\
     Png.chunk_length ihdr = 13 /\
     length (Png.chunk_data ihdr) = 13%nat /\
     Png.chunk_data ihdr
       = to_bytes_be 4 3 ++ to_bytes_be 4 70000 ++ [8; 2; 0; 0; 0] /\
     from_bytes_be (slice 0 4 (Png.chunk_data ihdr)) = 3 /\
     from_bytes_be (slice 4 8 (Png.chunk_data ihdr)) = 70000) /\
  (no_io_failure quiet_world /\
   exists σ' small large large2x,
     run create_placeholders_main quiet_world = (Ok tt, σ') /\
     files σ' !! "32x32.png" = Some small /\
     Png.dimensions small = Some (32, 32) /\
     files σ' !! "128x128.png" = Some large /\
     Png.dimensions large = Some (128, 128) /\
     files σ' !! "128x128@2x.png" = Some large2x /\
     Png.dimensions large2x = Some (128, 128)).
Proof.
  assert (Hio : no_io_failure quiet_world) by (intros op; reflexivity).
  split; split.
  - vm_compute; reflexivity.
  - apply (proj1 ihdr_payload_is_correct 3 70000 "tall.png" busy_world).
    vm_compute; reflexivity.
  - exact Hio.
  - exact (proj2 ihdr_payload_is_correct quiet_world Hio).
Defined.

(** C10. The constant 0xae426082 is the CRC-32 of the type tag IEND
    followed by no data, so the IEND chunk of every emitted file is a
    valid chunk: length 0, no data and a CRC field that matches. *)
Theorem iend_chunk_is_valid :
  Crc32.crc32 (b_lit "IEND" ++ []) = 0xae426082 /\
  forall w h fn σ bs,
    emitted fn (run (create_minimal_png w h fn) σ) = Some bs ->
    exists ihdr idat iend,
      Png.read_png bs = Some [ihdr; idat; iend] /\
      Png.chunk_type iend = b_lit "IEND" /\
      Png.chunk_length iend = 0 /\
      Png.chunk_data iend = [] /\
      Png.chunk_crc iend = 0xae426082 /\
      Png.crc_ok iend.
Proof.
  split; [reflexivity|].
  intros w h fn σ bs (_ & _ & _ & ->)%create_minimal_png_emitted.
  exists (ihdr_chunk w h), idat_chunk, iend_chunk.
  rewrite read_png_image. repeat split.
Qed.

Lemma iend_chunk_is_valid_witness :
  emitted "128x128.png"
    (run (create_minimal_png 128 128 "128x128.png") quiet_world)
    = Some (png_image 128 128) /\
  exists ihdr idat iend,
    Png.read_png (png_image 128 128) = Some [ihdr; idat; iend] /\
    Png.chunk_type iend = b_lit "IEND" /\
    Png.chunk_length iend = 0 /\
    Png.chunk_data iend = [] /\
    Png.chunk_crc iend = 0xae426082 /\
    Png.crc_ok iend.
Proof.
  split; [vm_compute; reflexivity|].
  apply (proj2 iend_chunk_is_valid 128 128 "128x128.png" quiet_world).
  vm_compute; reflexivity.
Defined.

(** C3 (the code departs from it). In the files the script writes, the
    length field of each chunk is the byte count of its data, but the
    CRC fields of IHDR and IDAT are not the CRC-32 of type and data:
    for [32x32.png] the IHDR field is 0x90773496 where the CRC-32 is
    0xfc18eda3, and the IDAT field is 0xe1240dc9 where the CRC-32 is
    0xaa1dd392. Only the IEND field matches. *)
Theorem png_crc_fields_do_not_match :
  exists σ' bs ihdr idat iend,
    run create_placeholders_main quiet_world = (Ok tt, σ') /\
    files σ' !! "32x32.png" = Some bs /\
    Png.read_png bs = Some [ihdr; idat; iend] /\
    Forall (fun c => Png.chunk_length c = len (Png.chunk_data c))
      [ihdr; idat; iend] /\
    Png.chunk_crc ihdr = 0x90773496 /\
    Crc32.crc32 (Png.chunk_type ihdr ++ Png.chunk_data ihdr) = 0xfc18eda3 /\
    Png.chunk_crc idat = 0xe1240dc9 /\
    Crc32.crc32 (Png.chunk_type idat ++ Png.chunk_data idat) = 0xaa1dd392 /\
    ~ Png.crc_ok ihdr /\ ~ Png.crc_ok idat /\ Png.crc_ok iend.
Proof.
  rewrite create_placeholders_main_ok by (intros op; reflexivity).
  eexists _, (png_image 32 32), (ihdr_chunk 32 32), idat_chunk, iend_chunk.
  split; [reflexivity|]. split.
  { cbn [add_line set_files files]. unfold placeholder_files.
    rewrite lookup_insert_ne, lookup_insert_ne by done.
    apply lookup_insert_eq. }
  split; [apply read_png_image|].
  split; [repeat constructor|].
  repeat split; try (unfold Png.crc_ok; vm_compute; discriminate).
Qed.

(** ** ICO generator *)

(** C1 (the code departs from it). [create_ico.py] does not complete
    even when the file system never fails: in every world it raises
    [struct.error], an error that is not an I/O failure, writes no
    [icon.ico] and prints no confirmation. *)
Theorem ico_script_raises_struct_error σ :
  run create_ico_main σ = (Raise StructError, σ) /\
  emitted "icon.ico" (run create_ico_main σ) = None /\
  stdout (snd (run create_ico_main σ)) = stdout σ.
Proof. repeat split. Qed.

(** C4 (the code departs from it). No byte sequence is produced for the
    32x32 icon. The pixel buffer is 4096 zero bytes as stated, but the
    format of the bitmap header has 13 codes that make 36 bytes, not 40,
    and is given 11 values, so [struct.pack] raises and
    [create_minimal_ico] stops there for every file name. *)
Theorem ico_bitmap_header_is_not_packed :
  bytes_mul [0x00] (32 * 32 * 4) = repeat 0 4096 /\
  (length <$> (snd <$> Struct.parse_format "<IHHHHHIIHHHII")) = Some 13%nat /\
  Struct.calcsize "<IHHHHHIIHHHII" = Some 36%nat /\
  length [40; 32; 32 * 2; 1; 32; 0; len (bytes_mul [0x00] (32 * 32 * 4));
          0; 0; 0; 0] = 11%nat /\
  Struct.pack "<IHHHHHIIHHHII"
    [40; 32; 32 * 2; 1; 32; 0; len (bytes_mul [0x00] (32 * 32 * 4));
     0; 0; 0; 0] = Raise StructError /\
  forall fn σ, run (create_minimal_ico fn) σ = (Raise StructError, σ).
Proof. repeat split. Qed.

(** C5 (the code departs from it). The file header packs to
    00 00 01 00 01 00 and the offset to the little-endian bytes of 22,
    but they never reach a file: [create_minimal_ico] raises before it
    opens [icon.ico], and the directory is left as it was. *)
Theorem ico_header_is_not_emitted :
  Struct.pack "<HHH" [0; 1; 1] = Ok [0; 0; 1; 0; 1; 0] /\
  Struct.pack "<I" [22] = Ok [22; 0; 0; 0] /\
  from_bytes_le [22; 0; 0; 0] = 22 /\
  forall σ,
    emitted "icon.ico" (run (create_minimal_ico "icon.ico") σ) = None /\
    files (snd (run (create_minimal_ico "icon.ico") σ)) = files σ.
Proof. repeat split. Qed.


(** * Further properties of the code *)

(** ** Helper facts *)

Lemma land_255_is_byte v : is_byte (Z.land v 255).
Proof.
  unfold is_byte. change 255 with (Z.ones 8).
  rewrite Z.land_ones by lia. apply Z.mod_pos_bound. lia.
Qed.

Lemma to_bytes_le_is_byte n v : Forall is_byte (to_bytes_le n v).
Proof.
  revert v. induction n as [|n IH]; intros v; cbn [to_bytes_le].
  - constructor.
  - constructor; [apply land_255_is_byte | apply IH].
Qed.

Lemma to_bytes_be_is_byte n v : Forall is_byte (to_bytes_be n v).
Proof. unfold to_bytes_be. apply Forall_rev, to_bytes_le_is_byte. Qed.

Lemma pack_item_is_byte o c v : Forall is_byte (Struct.pack_item o c v).
Proof.
  destruct o; [apply to_bytes_le_is_byte | apply to_bytes_be_is_byte].
Qed.

Lemma length_pack_item o c v :
  length (Struct.pack_item o c v) = Struct.code_size c.
Proof.
  destruct o; [apply length_to_bytes_le | apply length_to_bytes_be].
Qed.

Lemma code_limit_pow c :
  Struct.code_limit c = 2 ^ (8 * Z.of_nat (Struct.code_size c)).
Proof. by destruct c. Qed.

(** [pack_items] succeeds exactly on as many values as codes, each in
    the range of its code. *)
Lemma pack_items_ok_iff o cs vs :
  (exists bs, Struct.pack_items o cs vs = Ok bs) <->
  Forall2 (fun c v => Struct.in_range c v = true) cs vs.
Proof.
  revert vs. induction cs as [|c cs IH]; intros [|v vs]; cbn [Struct.pack_items].
  - split; [constructor | eauto].
  - split; [intros [? [=]] | inversion 1].
  - split; [intros [? [=]] | inversion 1].
  - destruct (Struct.in_range c v) eqn:Hr.
    + split.
      * intros [bs Hbs]. constructor; [done|]. apply IH.
        destruct (Struct.pack_items o cs vs); [eauto | discriminate].
      * inversion 1 as [|? ? ? ? _ Hrest]; subst.
        apply IH in Hrest as [r ->]. eauto.
    + split; [intros [? [=]] | inversion 1; congruence].
Qed.

Lemma pack_items_shape o cs vs bs :
  Struct.pack_items o cs vs = Ok bs ->
  length bs = codes_size cs /\ Forall is_byte bs.
Proof.
  revert vs bs.
  induction cs as [|c cs IH]; intros [|v vs] bs; cbn [Struct.pack_items];
    try discriminate.
  - intros [= <-]. split; [reflexivity | constructor].
  - destruct (Struct.in_range c v); [|discriminate].
    destruct (Struct.pack_items o cs vs) as [r|] eqn:Hr; [|discriminate].
    intros [= <-]. destruct (IH _ _ Hr) as [Hlen Hall]. split.
    + rewrite length_app, length_pack_item, Hlen. reflexivity.
    + apply Forall_app. split; [apply pack_item_is_byte | exact Hall].
Qed.

Lemma forallb_is_byte (l : bytes) :
  forallb (fun v => (0 <=? v) && (v <? 256)) l = true -> Forall is_byte l.
Proof.
  rewrite forallb_forall, Forall_forall. intros H v Hv.
  apply list_elem_of_In, H, andb_true_iff in Hv as [H0 H1].
  apply Z.leb_le in H0. apply Z.ltb_lt in H1. by split.
Qed.

(** The bytes of the file around the two dimension fields. *)
Lemma png_image_parts w h :
  png_image w h =
  take 16 (png_image 0 0) ++ (to_bytes_be 4 w ++ to_bytes_be 4 h)
    ++ drop 24 (png_image 0 0).
Proof. reflexivity. Qed.

Lemma png_image_is_byte w h : Forall is_byte (png_image w h).
Proof.
  rewrite png_image_parts.
  apply Forall_app; split; [by apply forallb_is_byte|].
  apply Forall_app; split; [|by apply forallb_is_byte].
  apply Forall_app; split; apply to_bytes_be_is_byte.
Qed.

Lemma create_minimal_png_then {A : Type} w h fn (k : py A) σ :
  u32 w -> u32 h ->
  run (create_minimal_png w h fn;; k) σ =
  if io_fails σ (OpOpen fn) then (Raise OSError, σ)
  else if io_fails σ (OpWrite fn)
       then (Raise OSError, set_files (insert fn []) σ)
       else run k (set_files (insert fn (png_image w h)) σ).
Proof.
  intros Hw%in_range_u32 Hh%in_range_u32.
  rewrite run_bind, create_minimal_png_run, Hw, Hh. cbn [andb].
  destruct (io_fails σ (OpOpen fn)); [reflexivity|].
  destruct (io_fails σ (OpWrite fn)); reflexivity.
Qed.

(** ** [create_minimal_png]: errors and effects *)

(** X1. A width or height that is negative or does not fit 32 bits makes
    [create_minimal_png] raise [struct.error] before it opens the file:
    nothing is created, truncated or printed. *)
Theorem png_rejects_dimensions_outside_u32 w h fn σ :
  ~ u32 w \/ ~ u32 h ->
  run (create_minimal_png w h fn) σ = (Raise StructError, σ).
Proof.
  intros Hbad. rewrite create_minimal_png_run.
  destruct (Struct.in_range Struct.fmt_I w) eqn:Hw; [|reflexivity].
  destruct (Struct.in_range Struct.fmt_I h) eqn:Hh; [|reflexivity].
  apply in_range_u32 in Hw, Hh. tauto.
Qed.

Lemma png_rejects_dimensions_outside_u32_witness :
  (~ u32 32 \/ ~ u32 4294967296) /\
  run (create_minimal_png 32 4294967296 "32x32.png") busy_world
    = (Raise StructError, busy_world).
Proof.
  assert (H : ~ u32 32 \/ ~ u32 4294967296) by (right; unfold u32; lia).
  split; [exact H|].
  exact (png_rejects_dimensions_outside_u32 32 4294967296 "32x32.png"
           busy_world H).
Defined.

(** X3. The file is opened in mode [wb]: a second call on the same file
    name replaces what the first one wrote, so the two calls leave the
    world the second call alone would leave. *)
Theorem png_last_call_wins w h w' h' fn σ :
  u32 w -> u32 h -> u32 w' -> u32 h' -> io_ok σ fn ->
  run (create_minimal_png w h fn;; create_minimal_png w' h' fn) σ
    = run (create_minimal_png w' h' fn) σ.
Proof.
  intros Hw Hh Hw' Hh' Hio.
  rewrite create_minimal_png_then by done.
  destruct Hio as [Hopen Hwrite]. rewrite Hopen, Hwrite.
  rewrite !create_minimal_png_ok by done.
  f_equal. unfold set_files. cbn [files stdout io_fails].
  by rewrite insert_insert_eq.
Qed.

Lemma png_last_call_wins_witness :
  u32 32 /\ u32 32 /\ u32 128 /\ u32 128 /\ io_ok busy_world "32x32.png" /\
  run (create_minimal_png 32 32 "32x32.png";;
       create_minimal_png 128 128 "32x32.png") busy_world
    = run (create_minimal_png 128 128 "32x32.png") busy_world.
Proof.
  assert (H32 : u32 32) by (unfold u32; lia).
  assert (H128 : u32 128) by (unfold u32; lia).
  assert (Hio : io_ok busy_world "32x32.png") by (split; reflexivity).
  repeat (split; [assumption|]).
  exact (png_last_call_wins 32 32 128 128 "32x32.png" busy_world
           H32 H32 H128 H128 Hio).
Defined.

(** X5. For dimensions that fit 32 bits, a failure of the file system on
    the target surfaces as [OSError], uncaught, and nothing is printed.
    When it is [open] that fails, the world is left exactly as it was:
    a file already there keeps its contents. *)
Theorem png_io_failure w h fn σ :
  u32 w -> u32 h -> ~ io_ok σ fn ->
  fst (run (create_minimal_png w h fn) σ) = Raise OSError /\
  stdout (snd (run (create_minimal_png w h fn) σ)) = stdout σ /\
  (io_fails σ (OpOpen fn) = true ->
   snd (run (create_minimal_png w h fn) σ) = σ /\
   files (snd (run (create_minimal_png w h fn) σ)) !! fn = files σ !! fn).
Proof.
  intros Hw%in_range_u32 Hh%in_range_u32 Hio.
  rewrite create_minimal_png_run, Hw, Hh. cbn [andb]. unfold io_ok in Hio.
  destruct (io_fails σ (OpOpen fn)); [by repeat split|].
  destruct (io_fails σ (OpWrite fn)); [|tauto].
  repeat split; discriminate.
Qed.

Lemma png_io_failure_witness :
  u32 16 /\ u32 16 /\ ~ io_ok stuck_world "128x128.png" /\
  fst (run (create_minimal_png 16 16 "128x128.png") stuck_world)
    = Raise OSError /\
  stdout (snd (run (create_minimal_png 16 16 "128x128.png") stuck_world))
    = stdout stuck_world /\
  (io_fails stuck_world (OpOpen "128x128.png") = true ->
   snd (run (create_minimal_png 16 16 "128x128.png") stuck_world)
     = stuck_world /\
   files (snd (run (create_minimal_png 16 16 "128x128.png") stuck_world))
     !! "128x128.png" = files stuck_world !! "128x128.png").
Proof.
  assert (H16 : u32 16) by (unfold u32; lia).
  assert (Hio : ~ io_ok stuck_world "128x128.png")
    by (intros [Ho _]; discriminate Ho).
  repeat (split; [assumption|]).
  exact (png_io_failure 16 16 "128x128.png" stuck_world H16 H16 Hio).
Defined.

(** ** [create_minimal_png]: the bytes *)

(** X6. Two emitted files differ at most in the eight bytes at offsets
    16 to 23, the declared width and height: the signature, the IDAT
    data and every CRC field are the same whatever the dimensions. *)
Theorem png_files_differ_only_in_dimensions w h fn σ bs w' h' fn' σ' bs' :
  emitted fn (run (create_minimal_png w h fn) σ) = Some bs ->
  emitted fn' (run (create_minimal_png w' h' fn') σ') = Some bs' ->
  take 16 bs = take 16 bs' /\ drop 24 bs = drop 24 bs' /\
  (bs = bs' <-> w = w' /\ h = h').
Proof.
  intros (Hw & Hh & _ & ->)%create_minimal_png_emitted
         (Hw' & Hh' & _ & ->)%create_minimal_png_emitted.
  split; [reflexivity|]. split; [reflexivity|]. split.
  - intros Heq.
    assert (Hd : Png.dimensions (png_image w h)
                 = Png.dimensions (png_image w' h')) by by rewrite Heq.
    rewrite !dimensions_png_image in Hd by done. by injection Hd.
  - by intros [-> ->].
Qed.

Lemma png_files_differ_only_in_dimensions_witness :
  emitted "32x32.png" (run (create_minimal_png 32 32 "32x32.png") busy_world)
    = Some (png_image 32 32) /\
  emitted "128x128.png"
    (run (create_minimal_png 128 128 "128x128.png") quiet_world)
    = Some (png_image 128 128) /\
  take 16 (png_image 32 32) = take 16 (png_image 128 128) /\
  drop 24 (png_image 32 32) = drop 24 (png_image 128 128) /\
  (png_image 32 32 = png_image 128 128 <-> 32 = 128 /\ 32 = 128).
Proof.
  split; [vm_compute; reflexivity|]. split; [vm_compute; reflexivity|].
  apply (png_files_differ_only_in_dimensions
           32 32 "32x32.png" busy_world (png_image 32 32)
           128 128 "128x128.png" quiet_world (png_image 128 128));
    vm_compute; reflexivity.
Defined.

(** X7. No file [create_minimal_png] emits passes a PNG checksum
    verification: whatever the dimensions, the CRC field of the IDAT
    chunk, 0xe1240dc9, is not the CRC-32 of the chunk, 0xaa1dd392. *)
Theorem png_idat_crc_never_matches w h fn σ bs :
  emitted fn (run (create_minimal_png w h fn) σ) = Some bs ->
  exists ihdr idat iend,
    Png.read_png bs = Some [ihdr; idat; iend] /\
    Png.chunk_type idat = b_lit "IDAT" /\
    Crc32.crc32 (Png.chunk_type idat ++ Png.chunk_data idat) = 0xaa1dd392 /\
    ~ Png.crc_ok idat.
Proof.
  intros (_ & _ & _ & ->)%create_minimal_png_emitted.
  exists (ihdr_chunk w h), idat_chunk, iend_chunk.
  rewrite read_png_image. repeat split.
  unfold Png.crc_ok. vm_compute. discriminate.
Qed.

Lemma png_idat_crc_never_matches_witness :
  emitted "x.png" (run (create_minimal_png 1 1 "x.png") quiet_world)
    = Some (png_image 1 1) /\
  exists ihdr idat iend,
    Png.read_png (png_image 1 1) = Some [ihdr; idat; iend] /\
    Png.chunk_type idat = b_lit "IDAT" /\
    Crc32.crc32 (Png.chunk_type idat ++ Png.chunk_data idat) = 0xaa1dd392 /\
    ~ Png.crc_ok idat.
Proof.
  split; [vm_compute; reflexivity|].
  apply (png_idat_crc_never_matches 1 1 "x.png" quiet_world).
  vm_compute; reflexivity.
Defined.

(** X8. Everything [create_minimal_png] writes is a byte: each element
    of an emitted file lies between 0 and 255, also for the bytes that
    come from the width and height arguments. *)
Theorem png_emits_bytes w h fn σ bs :
  emitted fn (run (create_minimal_png w h fn) σ) = Some bs ->
  Forall is_byte bs.
Proof.
  intros (_ & _ & _ & ->)%create_minimal_png_emitted.
  apply png_image_is_byte.
Qed.

Lemma png_emits_bytes_witness :
  emitted "x.png" (run (create_minimal_png 4294967295 70000 "x.png") busy_world)
    = Some (png_image 4294967295 70000) /\
  Forall is_byte (png_image 4294967295 70000).
Proof.
  split; [vm_compute; reflexivity|].
  apply (png_emits_bytes 4294967295 70000 "x.png" busy_world).
  vm_compute; reflexivity.
Defined.

(** X14. The bytes [create_minimal_png] leaves in its file depend on the
    width and height alone: in any two worlds where the file system
    does not fail on the file, whatever they hold and whatever was
    printed, two calls with the same arguments end the same way, and for
    dimensions that fit 32 bits both leave the same 70 bytes. *)
Theorem png_output_depends_only_on_arguments w h fn σ1 σ2 :
  io_ok σ1 fn -> io_ok σ2 fn ->
  output_of fn (run (create_minimal_png w h fn) σ1)
    = output_of fn (run (create_minimal_png w h fn) σ2) /\
  (u32 w -> u32 h ->
   exists bs,
     length bs = 70%nat /\
     emitted fn (run (create_minimal_png w h fn) σ1) = Some bs /\
     emitted fn (run (create_minimal_png w h fn) σ2) = Some bs).
Proof.
  intros Hio1 Hio2. split.
  - destruct Hio1 as [Ho1 Hw1], Hio2 as [Ho2 Hw2].
    rewrite !create_minimal_png_run, Ho1, Hw1, Ho2, Hw2.
    destruct (_ && _); [|reflexivity].
    cbn [output_of set_files files]. by rewrite !lookup_insert_eq.
  - intros Hw Hh. exists (png_image w h).
    split; [reflexivity|]. split; by apply create_minimal_png_emitted.
Qed.

Lemma png_output_depends_only_on_arguments_witness :
  io_ok quiet_world "32x32.png" /\ io_ok busy_world "32x32.png" /\
  output_of "32x32.png" (run (create_minimal_png 32 32 "32x32.png") quiet_world)
    = output_of "32x32.png"
        (run (create_minimal_png 32 32 "32x32.png") busy_world) /\
  (u32 32 -> u32 32 ->
   exists bs,
     length bs = 70%nat /\
     emitted "32x32.png"
       (run (create_minimal_png 32 32 "32x32.png") quiet_world) = Some bs /\
     emitted "32x32.png"
       (run (create_minimal_png 32 32 "32x32.png") busy_world) = Some bs).
Proof.
  assert (H1 : io_ok quiet_world "32x32.png") by (split; reflexivity).
  assert (H2 : io_ok busy_world "32x32.png") by (split; reflexivity).
  split; [exact H1|]. split; [exact H2|].
  exact (png_output_depends_only_on_arguments 32 32 "32x32.png"
           quiet_world busy_world H1 H2).
Defined.

(** ** [create_placeholders.py] as a whole *)

(** X9. The script has two outcomes only. Either no operation on its
    three files fails, and it writes them and prints the confirmation;
    or one fails, and it stops with [OSError] (never [struct.error])
    without printing anything. *)
Theorem placeholders_main_outcome σ :
  (io_ok σ "32x32.png" /\ io_ok σ "128x128.png" /\
   io_ok σ "128x128@2x.png") /\
  run create_placeholders_main σ
    = (Ok tt,
       add_line "PNG files created successfully"
         (set_files placeholder_files σ))
  \/
  ~ (io_ok σ "32x32.png" /\ io_ok σ "128x128.png" /\
     io_ok σ "128x128@2x.png") /\
  fst (run create_placeholders_main σ) = Raise OSError /\
  stdout (snd (run create_placeholders_main σ)) = stdout σ.
Proof.
  assert (H32 : u32 32) by (unfold u32; lia).
  assert (H128 : u32 128) by (unfold u32; lia).
  unfold create_placeholders_main, io_ok.
  rewrite create_minimal_png_then by done.
  destruct (io_fails σ (OpOpen "32x32.png")) eqn:Ho1;
    [right; repeat split; intros [[? ?] _]; discriminate|].
  destruct (io_fails σ (OpWrite "32x32.png")) eqn:Hw1;
    [right; repeat split; intros [[? ?] _]; discriminate|].
  rewrite create_minimal_png_then by done. cbn [set_files io_fails].
  destruct (io_fails σ (OpOpen "128x128.png")) eqn:Ho2;
    [right; repeat split; intros (_ & [? ?] & _); discriminate|].
  destruct (io_fails σ (OpWrite "128x128.png")) eqn:Hw2;
    [right; repeat split; intros (_ & [? ?] & _); discriminate|].
  rewrite create_minimal_png_then by done. cbn [set_files io_fails].
  destruct (io_fails σ (OpOpen "128x128@2x.png")) eqn:Ho3;
    [right; repeat split; intros (_ & _ & [? ?]); discriminate|].
  destruct (io_fails σ (OpWrite "128x128@2x.png")) eqn:Hw3;
    [right; repeat split; intros (_ & _ & [? ?]); discriminate|].
  left. repeat split.
Qed.

(** X10. The script does not roll back: when the first file can be
    written and [128x128.png] cannot be opened, the script stops with
    [OSError] having written [32x32.png] only; [128x128@2x.png] is not
    attempted and no confirmation is printed. *)
Theorem placeholders_partial_progress σ :
  io_ok σ "32x32.png" ->
  io_fails σ (OpOpen "128x128.png") = true ->
  run create_placeholders_main σ
    = (Raise OSError,
       set_files (insert "32x32.png" (png_image 32 32)) σ).
Proof.
  intros [Ho1 Hw1] Ho2.
  assert (H32 : u32 32) by (unfold u32; lia).
  assert (H128 : u32 128) by (unfold u32; lia).
  unfold create_placeholders_main.
  rewrite create_minimal_png_then, Ho1, Hw1 by done.
  rewrite create_minimal_png_then by done. cbn [set_files io_fails].
  by rewrite Ho2.
Qed.

Lemma placeholders_partial_progress_witness :
  io_ok stuck_world "32x32.png" /\
  io_fails stuck_world (OpOpen "128x128.png") = true /\
  run create_placeholders_main stuck_world
    = (Raise OSError,
       set_files (insert "32x32.png" (png_image 32 32)) stuck_world).
Proof.
  assert (H1 : io_ok stuck_world "32x32.png") by (split; reflexivity).
  assert (H2 : io_fails stuck_world (OpOpen "128x128.png") = true)
    by reflexivity.
  split; [exact H1|]. split; [exact H2|].
  exact (placeholders_partial_progress stuck_world H1 H2).
Defined.

(** ** [struct.pack] as the scripts call it *)

Lemma parse_codes_codes_string cs :
  Struct.parse_codes (codes_string cs) = Some cs.
Proof.
  induction cs as [|c cs IH]; [reflexivity|].
  cbn [codes_string foldr Struct.parse_codes]. fold (codes_string cs).
  rewrite IH. by destruct c.
Qed.

Lemma parse_format_format_of o cs :
  Struct.parse_format (format_of o cs) = Some (o, cs).
Proof.
  unfold format_of. destruct o; cbn [Struct.parse_format order_mark];
    cbn [Ascii.eqb Bool.eqb]; by rewrite parse_codes_codes_string.
Qed.

Lemma in_range_fits c v : Struct.in_range c v = true <-> fits c v.
Proof.
  unfold Struct.in_range, fits.
  rewrite andb_true_iff, Z.leb_le, Z.ltb_lt, code_limit_pow. reflexivity.
Qed.

Lemma Forall2_in_range_fits cs vs :
  Forall2 (fun c v => Struct.in_range c v = true) cs vs <->
  Forall2 fits cs vs.
Proof.
  split; intros H; (eapply Forall2_impl; [exact H|]);
    intros c v; apply in_range_fits.
Qed.

Lemma pack_items_raises_struct_error o cs vs e :
  Struct.pack_items o cs vs = Raise e -> e = StructError.
Proof.
  revert vs. induction cs as [|c cs IH]; intros [|v vs];
    cbn [Struct.pack_items]; try congruence.
  destruct (Struct.in_range c v); [|congruence].
  destruct (Struct.pack_items o cs vs) eqn:Hr; [discriminate|].
  intros [= <-]. by eapply IH.
Qed.

(** X11. For the format written with a byte order mark, [<] or [>],
    followed by the codes [cs] among [B], [H] and [I], [struct.pack]
    returns bytes exactly when there are as many values as codes and
    each value [v] satisfies 0 <= v < 2^(8 n), with n = 1, 2, 4 the size
    of its code; in every other case it raises [struct.error]. *)
Theorem pack_succeeds_iff o cs vs :
  ((exists bs, Struct.pack (format_of o cs) vs = Ok bs) <->
   Forall2 fits cs vs) /\
  (~ Forall2 fits cs vs ->
   Struct.pack (format_of o cs) vs = Raise StructError).
Proof.
  assert (Hiff : (exists bs, Struct.pack (format_of o cs) vs = Ok bs) <->
                 Forall2 fits cs vs).
  { rewrite <- Forall2_in_range_fits.
    unfold Struct.pack. rewrite parse_format_format_of.
    destruct (length cs =? length vs)%nat eqn:Hlen.
    - apply pack_items_ok_iff.
    - apply Nat.eqb_neq in Hlen. split.
      + intros [? [=]].
      + by intros ?%Forall2_length. }
  split; [exact Hiff|].
  intros Hbad. destruct (Struct.pack (format_of o cs) vs) as [bs|e] eqn:Hp.
  - exfalso. apply Hbad, Hiff. by exists bs.
  - f_equal. unfold Struct.pack in Hp. rewrite parse_format_format_of in Hp.
    destruct (length cs =? length vs)%nat; [|congruence].
    by eapply pack_items_raises_struct_error.
Qed.

Lemma pack_succeeds_iff_witness :
  format_of Struct.LittleEndian [Struct.fmt_B; Struct.fmt_H] = "<BH"%string /\
  ~ Forall2 fits [Struct.fmt_B; Struct.fmt_H] [256; 7] /\
  Struct.pack "<BH" [256; 7] = Raise StructError /\
  Forall2 fits [Struct.fmt_B; Struct.fmt_H] [255; 65535] /\
  (exists bs, Struct.pack "<BH" [255; 65535] = Ok bs).
Proof.
  assert (Hbad : ~ Forall2 fits [Struct.fmt_B; Struct.fmt_H] [256; 7]).
  { intros H. inversion H as [|? ? ? ? Hfit _]. unfold fits in Hfit.
    cbn in Hfit. lia. }
  assert (Hgood : Forall2 fits [Struct.fmt_B; Struct.fmt_H] [255; 65535]).
  { repeat constructor; cbn; lia. }
  split; [reflexivity|]. split; [exact Hbad|].
  split.
  - exact (proj2 (pack_succeeds_iff Struct.LittleEndian
                    [Struct.fmt_B; Struct.fmt_H] [256; 7]) Hbad).
  - split; [exact Hgood|].
    exact (proj2 (proj1 (pack_succeeds_iff Struct.LittleEndian
                           [Struct.fmt_B; Struct.fmt_H] [255; 65535]))
             Hgood).
Defined.

(** X12. When [struct.pack] returns, the result has the number of
    bytes [struct.calcsize] gives for the format, one, two or four per
    code and no padding, and each element is a byte. *)
Theorem pack_length_and_bytes fmt vs bs :
  Struct.pack fmt vs = Ok bs ->
  Struct.calcsize fmt = Some (length bs) /\ Forall is_byte bs.
Proof.
  unfold Struct.pack, Struct.calcsize.
  destruct (Struct.parse_format fmt) as [[o cs]|]; [|discriminate].
  destruct (length cs =? length vs)%nat; [|discriminate].
  intros [Hlen Hall]%pack_items_shape. split; [|exact Hall].
  cbn [fmap option_fmap option_map snd]. by rewrite Hlen.
Qed.

Lemma pack_length_and_bytes_witness :
  Struct.pack "<BBBBHHI" [32; 32; 0; 0; 1; 32; 4136]
    = Ok [32; 32; 0; 0; 1; 0; 32; 0; 40; 16; 0; 0] /\
  Struct.calcsize "<BBBBHHI"
    = Some (length [32; 32; 0; 0; 1; 0; 32; 0; 40; 16; 0; 0]) /\
  Forall is_byte [32; 32; 0; 0; 1; 0; 32; 0; 40; 16; 0; 0].
Proof.
  split; [reflexivity|].
  apply (pack_length_and_bytes "<BBBBHHI" [32; 32; 0; 0; 1; 32; 4136]).
  reflexivity.
Defined.

(** X13. Packing loses nothing: a value in the range of its code is
    read back from its packed bytes, least significant byte first for
    [<] and most significant byte first for [>]. *)
Theorem pack_item_roundtrip o c v :
  Struct.in_range c v = true ->
  decode_item o (Struct.pack_item o c v) = v.
Proof.
  unfold Struct.in_range. rewrite andb_true_iff, Z.leb_le, Z.ltb_lt.
  rewrite code_limit_pow. intros [H0 Hlt].
  destruct o; cbn [decode_item Struct.pack_item].
  - rewrite from_to_bytes_le by done. apply Z.mod_small. lia.
  - apply from_to_bytes_be. lia.
Qed.

Lemma pack_item_roundtrip_witness :
  Struct.in_range Struct.fmt_H 4136 = true /\
  decode_item Struct.LittleEndian
    (Struct.pack_item Struct.LittleEndian Struct.fmt_H 4136) = 4136.
Proof.
  split; [reflexivity|].
  apply (pack_item_roundtrip Struct.LittleEndian Struct.fmt_H 4136).
  reflexivity.
Defined.
